(** * Task-management REST API: a shallow embedding of [backend/app]

    The development follows [backend/app/schemas.py] and
    [backend/app/main.py].

    - The request schemas are records, each with the validator that the
      schema library derives from its field annotations.
    - The Task table is a list of rows in storage order.  A query by id is a
      [filter], and [scalar_one_or_none] has its three outcomes.
    - A route handler is a function in a state-and-exception monad over the
      store; the store a handler ends with is the committed one.
    - The database's choice of a new primary key, the integer range of the
      id column and the external chat client are parameters of the
      development, as is the schema library's coercion of non-boolean values
      to [bool].
    - Requests are served one at a time. *)

From Stdlib Require Import ZArith List String Bool Lia Permutation.
Import ListNotations.

Open Scope Z_scope.
Open Scope string_scope.

(** ** Request bodies *)

(** A decoded JSON document.  A number keeps the text of its literal: no
    handler of this program computes with it.  An object keeps its members in
    textual order, duplicates included. *)
#[local] Unset Elimination Schemes.
Inductive json : Type :=
| JNull
| JBool (b : bool)
| JNumber (literal : string)
| JStr (s : string)
| JArr (items : list json)
| JObj (members : list (string * json)).
#[local] Set Elimination Schemes.

(** Lookup in the [dict] that decoding builds from the members of an object:
    a later member overwrites an earlier one with the same key. *)
Fixpoint dict_get (key : string) (members : list (string * json)) : option json :=
  match members with
  | [] => None
  | (k, v) :: rest =>
      match dict_get key rest with
      | Some w => Some w
      | None => if String.eqb key k then Some v else None
      end
  end.

(** ** Exceptions and results *)

Inductive exn : Type :=
| HTTPException (status_code : Z) (detail : string)
| RequestValidationError
| MultipleResultsFound
| IntegrityError
| InvalidRequestError
| DBAPIError.

Inductive result (A : Type) : Type :=
| Return (a : A)
| Raise (e : exn).

Arguments Return {A} a.
Arguments Raise {A} e.

(** What the framework answers at the request boundary: 200 for a returned
    value, the code of an [HTTPException], 422 for a body that failed
    validation, 500 for any other exception. *)
Definition status_of {A : Type} (r : result A) : Z :=
  match r with
  | Return _ => 200
  | Raise (HTTPException status_code _) => status_code
  | Raise RequestValidationError => 422
  | Raise MultipleResultsFound => 500
  | Raise IntegrityError => 500
  | Raise InvalidRequestError => 500
  | Raise DBAPIError => 500
  end.

(** ** schemas.py *)

(** The validator of a [str] field: a JSON string and nothing else. *)
Definition validate_str (v : json) : option string :=
  match v with
  | JStr s => Some s
  | _ => None
  end.

Module TaskCreate.
Record t : Type := mk { title : string; completed : bool }.
End TaskCreate.

Module TaskUpdate.
Record t : Type := mk { title : string; completed : bool }.
End TaskUpdate.

Module TaskOut.
Record t : Type := mk { id : Z; title : string; completed : bool }.
End TaskOut.

(** ** The Task table *)

(** Modelled from the spec: [app/models.py] is not part of the sources at
    hand.  "Persisted state: one table holding Task rows with columns [id]
    (primary key), [title], [completed]." *)
Module Task.
Record t : Type := mk { id : Z; title : string; completed : bool }.
End Task.

(** [response_model=TaskOut] with [from_attributes]: the three attributes of
    the returned object, read by name. *)
Definition to_TaskOut (task : Task.t) : TaskOut.t :=
  TaskOut.mk (Task.id task) (Task.title task) (Task.completed task).

Definition has_id (task_id : Z) (task : Task.t) : bool :=
  Z.eqb (Task.id task) task_id.

(** [UPDATE ... WHERE id = task_id]: the table after the row with [task_id]
    was overwritten. *)
Definition overwritten (task_id : Z) (title : string) (completed : bool)
           (table : list Task.t) : list Task.t :=
  map (fun row => if has_id task_id row
                  then Task.mk task_id title completed else row) table.

(** [DELETE ... WHERE id = task_id]: the table after the row with [task_id]
    was removed. *)
Definition removed (task_id : Z) (table : list Task.t) : list Task.t :=
  filter (fun row => negb (has_id task_id row)) table.

(** The exception of the three handlers that look a Task up. *)
Definition not_found : exn := HTTPException 404 "Task not found".

(** The primary-key constraint of the table. *)
Definition pk_unique (table : list Task.t) : Prop :=
  NoDup (map Task.id table).

(** Two id-generation policies, to run the handlers on concrete stores.  The
    generator's own state is a counter.  [alloc_reuse] hands out one more than
    the largest id in the table, so the id of a deleted last row comes back;
    [alloc_retire] never hands out an id twice. *)
Definition max_id (table : list Task.t) : Z :=
  fold_right (fun task acc => Z.max (Task.id task) acc) 0 table.

Definition alloc_reuse (counter : Z) (table : list Task.t) : Z * Z :=
  (max_id table + 1, counter).

Definition alloc_retire (counter : Z) (table : list Task.t) : Z * Z :=
  let i := Z.max counter (max_id table + 1) in (i, i + 1).

(** A sample coercion for running the validators: the literals 0 and 1 and
    the words "true" and "false". *)
Definition coerce_sample (v : json) : option bool :=
  match v with
  | JNumber literal =>
      if String.eqb literal "1" then Some true
      else if String.eqb literal "0" then Some false
      else None
  | JStr s =>
      if String.eqb s "true" then Some true
      else if String.eqb s "false" then Some false
      else None
  | _ => None
  end.

(** A sample range for the integers that the id column and the database
    driver take: the signed 64-bit ones. *)
Definition int64_range (i : Z) : bool :=
  andb (Z.leb (- 2 ^ 63) i) (Z.ltb i (2 ^ 63)).

(** A sample table: two rows, as [POST /tasks/] leaves them. *)
Definition sample_rows : list Task.t :=
  [Task.mk 1 "A" false; Task.mk 2 "B" false].

(** ** The suggestion service *)

Module Message.
Record t : Type := mk { role : string; content : string }.
End Message.

(** How the [try] block of [suggest_task_completion] ends: with the text at
    [response["message"]["content"]], or with an exception [e], of which the
    handler uses [str(e)] only. *)
Inductive chat_outcome : Type :=
| Replied (content : string)
| Failed (str_e : string).

Module Suggestion.
Record t : Type := mk { suggestion : string }.
End Suggestion.

(** Two chat clients to run the handler with: a service that cannot be
    reached, and one that answers with the prompt it was sent. *)
Definition chat_unreachable (model : string) (messages : list Message.t)
  : chat_outcome :=
  Failed "Failed to connect to Ollama".

Definition chat_echo (model : string) (messages : list Message.t)
  : chat_outcome :=
  match messages with
  | [] => Failed "no message"
  | m :: _ => Replied (Message.content m)
  end.

(** [sub] occurs in [s]. *)
Definition occurs_in (sub s : string) : Prop :=
  exists before after, s = before ++ sub ++ after.

Section Backend.

(** The schema library's coercion of a value that is not a JSON boolean to a
    [bool] field (numbers and strings that read as booleans); it is left
    open, and nothing below depends on which values it accepts. *)
Variable coerce_bool : json -> option bool.

(** The validator of a [bool] field. *)
Definition validate_bool (v : json) : option bool :=
  match v with
  | JBool b => Some b
  | other => coerce_bool other
  end.

(** [class TaskCreate]: [title: str] is required, [completed: bool = False]
    is optional, members of the body under other keys are not looked at. *)
Definition validate_TaskCreate (body : json) : result TaskCreate.t :=
  match body with
  | JObj members =>
      match dict_get "title" members with
      | None => Raise RequestValidationError
      | Some tv =>
          match validate_str tv with
          | None => Raise RequestValidationError
          | Some title =>
              match dict_get "completed" members with
              | None => Return (TaskCreate.mk title false)
              | Some cv =>
                  match validate_bool cv with
                  | None => Raise RequestValidationError
                  | Some completed => Return (TaskCreate.mk title completed)
                  end
              end
          end
      end
  | _ => Raise RequestValidationError
  end.

(** [class TaskUpdate]: [title: str] and [completed: bool], both required. *)
Definition validate_TaskUpdate (body : json) : result TaskUpdate.t :=
  match body with
  | JObj members =>
      match dict_get "title" members with
      | None => Raise RequestValidationError
      | Some tv =>
          match validate_str tv with
          | None => Raise RequestValidationError
          | Some title =>
              match dict_get "completed" members with
              | None => Raise RequestValidationError
              | Some cv =>
                  match validate_bool cv with
                  | None => Raise RequestValidationError
                  | Some completed => Return (TaskUpdate.mk title completed)
                  end
              end
          end
      end
  | _ => Raise RequestValidationError
  end.


(** The id generator of the database: from its own state and the table it
    picks the primary key of the next inserted row. *)
Variable G : Type.
Variable alloc : G -> list Task.t -> Z * G.

(** The external chat client, [ollama_client.chat(model=..., messages=...)]. *)
Variable ollama_chat : string -> list Message.t -> chat_outcome.

(** The integers that the database driver accepts for the id column.  The
    path parameter [task_id: int] is any integer; the ids in the table are
    values of the column. *)
Variable id_in_range : Z -> bool.

(** ** The database session *)

Record Store : Type := mkStore { rows : list Task.t; generator : G }.

(** A handler runs against the store and ends with a value or an exception. *)
Definition M (A : Type) : Type := Store -> result A * Store.

Definition ret {A : Type} (a : A) : M A := fun db => (Return a, db).

Definition raise {A : Type} (e : exn) : M A := fun db => (Raise e, db).

Definition bind {A B : Type} (m : M A) (k : A -> M B) : M B :=
  fun db =>
    match m db with
    | (Return a, db') => k a db'
    | (Raise e, db') => (Raise e, db')
    end.

Notation "x <- m ;; k" := (bind m (fun x => k))
  (at level 61, m at next level, right associativity).

Definition lift {A : Type} (r : result A) : M A := fun db => (r, db).

(** [db.execute(select(Task))] followed by [.scalars().all()]. *)
Definition select_all : M (list Task.t) :=
  fun db => (Return (rows db), db).

(** [db.execute(select(Task).filter(Task.id == task_id))]: the rows with
    the id.  [task_id] is bound as a parameter of the id column's integer
    type, and the driver raises on an integer outside the range of that type.
    The ids in the table are values of the column, so an id that a row has is
    bound without error, and the range decides only when no row has the
    id. *)
Definition select_where_id (task_id : Z) : M (list Task.t) :=
  fun db =>
    match filter (has_id task_id) (rows db) with
    | [] => if id_in_range task_id
            then (Return [], db)
            else (Raise DBAPIError, db)
    | found => (Return found, db)
    end.

(** [.scalar_one_or_none()]: no row, the one row, or an exception when the
    query produced several. *)
Definition scalar_one_or_none (found : list Task.t) : M (option Task.t) :=
  match found with
  | [] => ret None
  | [task] => ret (Some task)
  | _ :: _ :: _ => raise MultipleResultsFound
  end.

(** [db.add(db_task)] and [db.commit()] for a new object: the row is appended
    under a generated id; the primary-key constraint refuses an id that is
    already in the table, and nothing is written then. *)
Definition add_commit (title : string) (completed : bool) : M Task.t :=
  fun db =>
    let (i, g) := alloc (generator db) (rows db) in
    if existsb (has_id i) (rows db)
    then (Raise IntegrityError, db)
    else
      let db_task := Task.mk i title completed in
      (Return db_task, mkStore (rows db ++ [db_task])%list g).

(** Assigning [title] and [completed] on a loaded object and [db.commit()]:
    the row with the object's id is overwritten in place. *)
Definition assign_commit (db_task : Task.t) (title : string) (completed : bool)
  : M Task.t :=
  fun db =>
    (Return (Task.mk (Task.id db_task) title completed),
     mkStore (overwritten (Task.id db_task) title completed (rows db))
             (generator db)).

(** [db.delete(db_task)] and [db.commit()]. *)
Definition delete_commit (db_task : Task.t) : M unit :=
  fun db =>
    (Return tt,
     mkStore (removed (Task.id db_task) (rows db)) (generator db)).

(** [db.refresh(db_task)]: the attributes are read again from the row with
    the object's primary key. *)
Definition refresh (db_task : Task.t) : M Task.t :=
  fun db =>
    match filter (has_id (Task.id db_task)) (rows db) with
    | [row] => (Return row, db)
    | _ => (Raise InvalidRequestError, db)
    end.

(** ** main.py: the handlers *)

(** [create_task], lines 40-46. *)
Definition create_task (task : TaskCreate.t) : M Task.t :=
  db_task <- add_commit (TaskCreate.title task) (TaskCreate.completed task) ;;
  db_task <- refresh db_task ;;
  ret db_task.

(** [read_tasks], lines 48-52. *)
Definition read_tasks : M (list Task.t) :=
  tasks <- select_all ;;
  ret tasks.

(** [read_task], lines 54-60. *)
Definition read_task (task_id : Z) : M Task.t :=
  found <- select_where_id task_id ;;
  task <- scalar_one_or_none found ;;
  match task with
  | None => raise (HTTPException 404 "Task not found")
  | Some task => ret task
  end.

(** [update_task], lines 62-73. *)
Definition update_task (task_id : Z) (task : TaskUpdate.t) : M Task.t :=
  found <- select_where_id task_id ;;
  db_task <- scalar_one_or_none found ;;
  match db_task with
  | None => raise (HTTPException 404 "Task not found")
  | Some db_task =>
      db_task <- assign_commit db_task (TaskUpdate.title task)
                   (TaskUpdate.completed task) ;;
      db_task <- refresh db_task ;;
      ret db_task
  end.

(** [delete_task], lines 75-84. *)
Definition delete_task (task_id : Z) : M Task.t :=
  found <- select_where_id task_id ;;
  db_task <- scalar_one_or_none found ;;
  match db_task with
  | None => raise (HTTPException 404 "Task not found")
  | Some db_task =>
      _ <- delete_commit db_task ;;
      ret db_task
  end.

(** [suggest_task_completion], lines 88-98.  The handler takes no session;
    it is placed in the same monad as the others so that its effect on the
    store can be stated. *)
Definition suggest_task_completion (title : string) : M Suggestion.t :=
  let prompt := "Just answer only steps for this task short: '" ++ title ++ "'?" in
  match ollama_chat "gemma3:4b-it-qat" [Message.mk "user" prompt] with
  | Replied content => ret (Suggestion.mk content)
  | Failed str_e => raise (HTTPException 500 ("Ollama error: " ++ str_e))
  end.

(** ** The routes: the handlers behind request validation and the response
    model *)

Definition POST_tasks (body : json) : M TaskOut.t :=
  task <- lift (validate_TaskCreate body) ;;
  db_task <- create_task task ;;
  ret (to_TaskOut db_task).

Definition GET_tasks : M (list TaskOut.t) :=
  tasks <- read_tasks ;;
  ret (map to_TaskOut tasks).

Definition GET_task (task_id : Z) : M TaskOut.t :=
  task <- read_task task_id ;;
  ret (to_TaskOut task).

Definition PUT_task (task_id : Z) (body : json) : M TaskOut.t :=
  task <- lift (validate_TaskUpdate body) ;;
  db_task <- update_task task_id task ;;
  ret (to_TaskOut db_task).

Definition DELETE_task (task_id : Z) : M TaskOut.t :=
  db_task <- delete_task task_id ;;
  ret (to_TaskOut db_task).

Definition POST_suggestions (title : string) : M Suggestion.t :=
  suggest_task_completion title.

(** A run of [POST /tasks/] requests, one per body, in order; the answers are
    collected, and the run stops at the first request that is not answered
    with a Task. *)
Fixpoint POST_tasks_all (bodies : list json) : M (list TaskOut.t) :=
  match bodies with
  | [] => ret []
  | body :: rest =>
      out <- POST_tasks body ;;
      outs <- POST_tasks_all rest ;;
      ret (out :: outs)
  end.

(** ** The stores the service can be in *)

Inductive request : Type :=
| PostTasks (body : json)
| GetTasks
| GetTask (task_id : Z)
| PutTask (task_id : Z) (body : json)
| DeleteTask (task_id : Z)
| PostSuggestions (title : string).

(** The store after a request was served. *)
Definition serve (req : request) (db : Store) : Store :=
  match req with
  | PostTasks body => snd (POST_tasks body db)
  | GetTasks => snd (GET_tasks db)
  | GetTask task_id => snd (GET_task task_id db)
  | PutTask task_id body => snd (PUT_task task_id body db)
  | DeleteTask task_id => snd (DELETE_task task_id db)
  | PostSuggestions title => snd (POST_suggestions title db)
  end.

(** The service starts on an empty table and serves one request after
    another. *)
Inductive reachable : Store -> Prop :=
| reachable_empty (g : G) : reachable (mkStore [] g)
| reachable_serve (req : request) (db : Store) :
    reachable db -> reachable (serve req db).

(** * Properties *)

Lemma append_empty_r (s : string) : s ++ "" = s.
Proof. induction s as [| c s IH]; simpl; [reflexivity | now rewrite IH]. Qed.

(** ** Selecting rows by id *)

Lemma has_id_true (task_id : Z) (task : Task.t) :
  has_id task_id task = true <-> Task.id task = task_id.
Proof. unfold has_id. apply Z.eqb_eq. Qed.

Lemma has_id_false (task_id : Z) (task : Task.t) :
  has_id task_id task = false <-> Task.id task <> task_id.
Proof. unfold has_id. apply Z.eqb_neq. Qed.

Lemma filter_has_id_absent (task_id : Z) (table : list Task.t) :
  ~ In task_id (map Task.id table) ->
  filter (has_id task_id) table = [].
Proof.
  induction table as [| row table IH]; simpl; intros Habs.
  - reflexivity.
  - destruct (has_id task_id row) eqn:E.
    + apply has_id_true in E. exfalso. apply Habs. now left.
    + apply IH. intros Hin. apply Habs. now right.
Qed.

Lemma filter_has_id_present (row : Task.t) (table : list Task.t) :
  pk_unique table ->
  In row table ->
  filter (has_id (Task.id row)) table = [row].
Proof.
  unfold pk_unique.
  induction table as [| r table IH]; simpl; intros Hnd Hin.
  - contradiction.
  - inversion Hnd as [| x l Hnotin Hnd']; subst.
    destruct Hin as [-> | Hin].
    + replace (has_id (Task.id row) row) with true
        by (symmetry; now apply has_id_true).
      now rewrite filter_has_id_absent.
    + destruct (has_id (Task.id row) r) eqn:E.
      * apply has_id_true in E. exfalso. apply Hnotin. rewrite E.
        now apply in_map.
      * now apply IH.
Qed.

Lemma existsb_has_id_false (task_id : Z) (table : list Task.t) :
  existsb (has_id task_id) table = false ->
  filter (has_id task_id) table = [].
Proof.
  induction table as [| row table IH]; simpl; intros H.
  - reflexivity.
  - apply orb_false_iff in H. destruct H as [-> H]. now apply IH.
Qed.

Lemma existsb_has_id_absent (task_id : Z) (table : list Task.t) :
  ~ In task_id (map Task.id table) ->
  existsb (has_id task_id) table = false.
Proof.
  induction table as [| row table IH]; simpl; intros Habs.
  - reflexivity.
  - apply orb_false_iff. split.
    + apply has_id_false. intros E. apply Habs. now left.
    + apply IH. intros Hin. apply Habs. now right.
Qed.

Lemma filter_has_id_absent_inv (task_id : Z) (table : list Task.t) :
  filter (has_id task_id) table = [] ->
  ~ In task_id (map Task.id table).
Proof.
  intros Hnil Hin. apply in_map_iff in Hin. destruct Hin as [row [Hid Hin]].
  assert (In row (filter (has_id task_id) table)) as H
      by (apply filter_In; split; [assumption | now apply has_id_true]).
  rewrite Hnil in H. contradiction.
Qed.

Lemma filter_has_id_appended (task_id : Z) (title : string) (completed : bool)
      (table : list Task.t) :
  existsb (has_id task_id) table = false ->
  filter (has_id task_id) (table ++ [Task.mk task_id title completed])%list
  = [Task.mk task_id title completed].
Proof.
  intros H. rewrite filter_app, existsb_has_id_false by assumption. simpl.
  replace (has_id task_id (Task.mk task_id title completed)) with true
    by (symmetry; now apply has_id_true).
  reflexivity.
Qed.

(** ** What each handler does, by cases on the table *)

Lemma create_task_run (task : TaskCreate.t) (db : Store) :
  create_task task db =
  let i := fst (alloc (generator db) (rows db)) in
  let db_task := Task.mk i (TaskCreate.title task) (TaskCreate.completed task) in
  if existsb (has_id i) (rows db)
  then (Raise IntegrityError, db)
  else (Return db_task,
        mkStore (rows db ++ [db_task])%list
                (snd (alloc (generator db) (rows db)))).
Proof.
  unfold create_task, bind, add_commit, refresh, ret.
  destruct (alloc (generator db) (rows db)) as [i g]. simpl.
  destruct (existsb (has_id i) (rows db)) eqn:E; [reflexivity |].
  simpl. now rewrite filter_has_id_appended.
Qed.

Lemma read_task_present (row : Task.t) (db : Store) :
  pk_unique (rows db) ->
  In row (rows db) ->
  read_task (Task.id row) db = (Return row, db).
Proof.
  intros Hpk Hin. unfold read_task, bind, select_where_id.
  now rewrite filter_has_id_present.
Qed.

Lemma read_task_absent (task_id : Z) (db : Store) :
  ~ In task_id (map Task.id (rows db)) ->
  id_in_range task_id = true ->
  read_task task_id db = (Raise not_found, db).
Proof.
  intros Habs Hrange. unfold read_task, bind, select_where_id.
  now rewrite filter_has_id_absent, Hrange.
Qed.

Lemma read_task_out_of_range (task_id : Z) (db : Store) :
  ~ In task_id (map Task.id (rows db)) ->
  id_in_range task_id = false ->
  read_task task_id db = (Raise DBAPIError, db).
Proof.
  intros Habs Hrange. unfold read_task, bind, select_where_id.
  now rewrite filter_has_id_absent, Hrange.
Qed.

Lemma overwritten_ids (task_id : Z) (title : string) (completed : bool)
      (table : list Task.t) :
  map Task.id (overwritten task_id title completed table) = map Task.id table.
Proof.
  unfold overwritten. rewrite map_map. apply map_ext. intros row.
  destruct (has_id task_id row) eqn:E; [| reflexivity].
  apply has_id_true in E. now rewrite E.
Qed.

Lemma overwritten_select (task_id other : Z) (title : string)
      (completed : bool) (table : list Task.t) :
  other <> task_id ->
  filter (has_id other) (overwritten task_id title completed table)
  = filter (has_id other) table.
Proof.
  intros Hneq. unfold overwritten.
  induction table as [| row table IH]; simpl; [reflexivity |].
  rewrite IH. destruct (has_id task_id row) eqn:E; [| reflexivity].
  apply has_id_true in E.
  replace (has_id other (Task.mk task_id title completed)) with false
    by (symmetry; apply has_id_false; simpl; congruence).
  replace (has_id other row) with false
    by (symmetry; apply has_id_false; congruence).
  reflexivity.
Qed.

Lemma overwritten_at (row : Task.t) (title : string) (completed : bool)
      (before after : list Task.t) :
  pk_unique (before ++ row :: after)%list ->
  overwritten (Task.id row) title completed (before ++ row :: after)%list
  = (before ++ Task.mk (Task.id row) title completed :: after)%list.
Proof.
  unfold pk_unique, overwritten. intros Hpk.
  rewrite map_app in Hpk. simpl in Hpk.
  pose proof (NoDup_remove_2 _ _ _ Hpk) as Hnotin.
  assert (forall l, (forall r, In r l -> Task.id r <> Task.id row) ->
                    map (fun r => if has_id (Task.id row) r
                                  then Task.mk (Task.id row) title completed
                                  else r) l = l) as Hsame.
  { induction l as [| r l IH]; simpl; intros Hl; [reflexivity |].
    replace (has_id (Task.id row) r) with false
      by (symmetry; apply has_id_false; apply Hl; now left).
    f_equal. apply IH. intros r' Hr'. apply Hl. now right. }
  rewrite map_app. simpl.
  replace (has_id (Task.id row) row) with true
    by (symmetry; now apply has_id_true).
  rewrite !Hsame; [reflexivity | |].
  - intros r Hr E. apply Hnotin. apply in_or_app. right.
    rewrite <- E. now apply in_map.
  - intros r Hr E. apply Hnotin. apply in_or_app. left.
    rewrite <- E. now apply in_map.
Qed.

Lemma removed_select_same (task_id : Z) (table : list Task.t) :
  filter (has_id task_id) (removed task_id table) = [].
Proof.
  unfold removed. induction table as [| row table IH]; simpl; [reflexivity |].
  destruct (has_id task_id row) eqn:E; simpl; [assumption |].
  now rewrite E.
Qed.

Lemma removed_select_other (task_id other : Z) (table : list Task.t) :
  other <> task_id ->
  filter (has_id other) (removed task_id table) = filter (has_id other) table.
Proof.
  intros Hneq. unfold removed.
  induction table as [| row table IH]; simpl; [reflexivity |].
  destruct (has_id task_id row) eqn:E; simpl; rewrite IH; [| reflexivity].
  apply has_id_true in E.
  replace (has_id other row) with false
    by (symmetry; apply has_id_false; congruence).
  reflexivity.
Qed.

Lemma removed_absent (task_id : Z) (table : list Task.t) :
  ~ In task_id (map Task.id (removed task_id table)).
Proof. apply filter_has_id_absent_inv, removed_select_same. Qed.

Lemma removed_length (row : Task.t) (table : list Task.t) :
  pk_unique table ->
  In row table ->
  S (List.length (removed (Task.id row) table)) = List.length table.
Proof.
  intros Hpk Hin.
  pose proof (filter_length (has_id (Task.id row)) table) as H.
  rewrite filter_has_id_present in H by assumption.
  unfold removed. simpl in H. lia.
Qed.

Lemma update_task_present (row : Task.t) (task : TaskUpdate.t) (db : Store) :
  pk_unique (rows db) ->
  In row (rows db) ->
  let db_task := Task.mk (Task.id row) (TaskUpdate.title task)
                         (TaskUpdate.completed task) in
  update_task (Task.id row) task db =
  (Return db_task,
   mkStore (overwritten (Task.id row) (TaskUpdate.title task)
                        (TaskUpdate.completed task) (rows db))
           (generator db)).
Proof.
  intros Hpk Hin. unfold update_task, bind, select_where_id.
  rewrite filter_has_id_present by assumption. simpl.
  unfold assign_commit, refresh, ret. simpl.
  destruct (in_split _ _ Hin) as [before [after Hsplit]].
  rewrite Hsplit in Hpk |- *. rewrite overwritten_at by assumption.
  set (new := Task.mk (Task.id row) (TaskUpdate.title task)
                      (TaskUpdate.completed task)).
  simpl.
  assert (filter (has_id (Task.id row)) (before ++ new :: after)%list = [new])
    as ->; [| reflexivity].
  change (Task.id row) with (Task.id new) at 1.
  apply filter_has_id_present; [| apply in_elt].
  unfold pk_unique in *. rewrite map_app in *. exact Hpk.
Qed.

Lemma update_task_absent (task_id : Z) (task : TaskUpdate.t) (db : Store) :
  ~ In task_id (map Task.id (rows db)) ->
  id_in_range task_id = true ->
  update_task task_id task db = (Raise not_found, db).
Proof.
  intros Habs Hrange. unfold update_task, bind, select_where_id.
  now rewrite filter_has_id_absent, Hrange.
Qed.

Lemma update_task_out_of_range
      (task_id : Z) (task : TaskUpdate.t) (db : Store) :
  ~ In task_id (map Task.id (rows db)) ->
  id_in_range task_id = false ->
  update_task task_id task db = (Raise DBAPIError, db).
Proof.
  intros Habs Hrange. unfold update_task, bind, select_where_id.
  now rewrite filter_has_id_absent, Hrange.
Qed.

Lemma update_task_miss (task_id : Z) (task : TaskUpdate.t) (db : Store) :
  ~ In task_id (map Task.id (rows db)) ->
  snd (update_task task_id task db) = db.
Proof.
  intros Habs. destruct (id_in_range task_id) eqn:Hrange.
  - now rewrite update_task_absent.
  - now rewrite update_task_out_of_range.
Qed.

Lemma delete_task_present (row : Task.t) (db : Store) :
  pk_unique (rows db) ->
  In row (rows db) ->
  delete_task (Task.id row) db =
  (Return row, mkStore (removed (Task.id row) (rows db)) (generator db)).
Proof.
  intros Hpk Hin. unfold delete_task, bind, select_where_id.
  now rewrite filter_has_id_present.
Qed.

Lemma delete_task_absent (task_id : Z) (db : Store) :
  ~ In task_id (map Task.id (rows db)) ->
  id_in_range task_id = true ->
  delete_task task_id db = (Raise not_found, db).
Proof.
  intros Habs Hrange. unfold delete_task, bind, select_where_id.
  now rewrite filter_has_id_absent, Hrange.
Qed.

Lemma delete_task_out_of_range (task_id : Z) (db : Store) :
  ~ In task_id (map Task.id (rows db)) ->
  id_in_range task_id = false ->
  delete_task task_id db = (Raise DBAPIError, db).
Proof.
  intros Habs Hrange. unfold delete_task, bind, select_where_id.
  now rewrite filter_has_id_absent, Hrange.
Qed.

Lemma delete_task_miss (task_id : Z) (db : Store) :
  ~ In task_id (map Task.id (rows db)) ->
  snd (delete_task task_id db) = db.
Proof.
  intros Habs. destruct (id_in_range task_id) eqn:Hrange.
  - now rewrite delete_task_absent.
  - now rewrite delete_task_out_of_range.
Qed.

(** ** The primary key stays unique *)

Lemma pk_unique_appended (task_id : Z) (title : string) (completed : bool)
      (table : list Task.t) :
  pk_unique table ->
  existsb (has_id task_id) table = false ->
  pk_unique (table ++ [Task.mk task_id title completed])%list.
Proof.
  unfold pk_unique. intros Hpk Hex. rewrite map_app. simpl.
  apply NoDup_app; [assumption | repeat constructor; intros [] |].
  intros x Hx [<- | []].
  apply filter_has_id_absent_inv in Hx; [assumption |].
  now apply existsb_has_id_false.
Qed.

Lemma pk_unique_removed (task_id : Z) (table : list Task.t) :
  pk_unique table -> pk_unique (removed task_id table).
Proof.
  unfold pk_unique, removed. induction table as [| row table IH]; simpl.
  - trivial.
  - intros Hpk. inversion Hpk as [| x l Hnotin Hpk']; subst.
    destruct (has_id task_id row); simpl; [now apply IH |].
    constructor; [| now apply IH].
    intros Hin. apply Hnotin. apply in_map_iff in Hin.
    destruct Hin as [r [Hr Hin]]. apply filter_In in Hin.
    rewrite <- Hr. apply in_map. tauto.
Qed.

Lemma create_task_pk_unique (task : TaskCreate.t) (db : Store) :
  pk_unique (rows db) -> pk_unique (rows (snd (create_task task db))).
Proof.
  intros Hpk. rewrite create_task_run. cbv zeta.
  destruct (existsb _ (rows db)) eqn:E; simpl; [assumption |].
  now apply pk_unique_appended.
Qed.

Lemma update_task_pk_unique (task_id : Z) (task : TaskUpdate.t) (db : Store) :
  pk_unique (rows db) -> pk_unique (rows (snd (update_task task_id task db))).
Proof.
  intros Hpk. destruct (in_dec Z.eq_dec task_id (map Task.id (rows db))) as [Hin | Habs].
  - apply in_map_iff in Hin. destruct Hin as [row [<- Hin]].
    rewrite update_task_present by assumption. simpl.
    unfold pk_unique. now rewrite overwritten_ids.
  - now rewrite update_task_miss.
Qed.

Lemma delete_task_pk_unique (task_id : Z) (db : Store) :
  pk_unique (rows db) -> pk_unique (rows (snd (delete_task task_id db))).
Proof.
  intros Hpk. destruct (in_dec Z.eq_dec task_id (map Task.id (rows db))) as [Hin | Habs].
  - apply in_map_iff in Hin. destruct Hin as [row [<- Hin]].
    rewrite delete_task_present by assumption. simpl.
    now apply pk_unique_removed.
  - now rewrite delete_task_miss.
Qed.

(** A handler wrapped into its route leaves the store the handler leaves. *)
Lemma snd_bind_ret {A B : Type} (m : M A) (f : A -> B) (db : Store) :
  snd ((a <- m ;; ret (f a)) db) = snd (m db).
Proof. unfold bind, ret. destruct (m db) as [[a | e] db']; reflexivity. Qed.

Lemma serve_pk_unique (req : request) (db : Store) :
  pk_unique (rows db) -> pk_unique (rows (serve req db)).
Proof.
  intros Hpk. destruct req as [body | | task_id | task_id body | task_id | title];
    simpl.
  - unfold POST_tasks, bind at 1, lift.
    destruct (validate_TaskCreate body) as [task | e]; [| assumption].
    rewrite snd_bind_ret. now apply create_task_pk_unique.
  - assumption.
  - unfold GET_task. rewrite snd_bind_ret.
    unfold read_task, bind, select_where_id.
    destruct (filter (has_id task_id) (rows db)) as [| r [| r' l]];
      [destruct (id_in_range task_id) | |]; assumption.
  - unfold PUT_task, bind at 1, lift.
    destruct (validate_TaskUpdate body) as [task | e]; [| assumption].
    rewrite snd_bind_ret. now apply update_task_pk_unique.
  - unfold DELETE_task. rewrite snd_bind_ret. now apply delete_task_pk_unique.
  - unfold POST_suggestions, suggest_task_completion.
    destruct (ollama_chat _ _); assumption.
Qed.

(** Every store the service can be in satisfies the primary-key
    constraint. *)
Lemma reachable_pk_unique (db : Store) :
  reachable db -> pk_unique (rows db).
Proof.
  induction 1 as [g | req db _ IH].
  - constructor.
  - now apply serve_pk_unique.
Qed.

(** ** The properties of the specification *)

(** C1. A Task created through [POST /tasks/] is read back by
    [GET /tasks/{id}] at the id that the creation returned: the answer is 200
    and carries the same id, title and completed flag; the read leaves the
    store as the creation left it. *)
Theorem create_then_get (body : json) (db db' : Store) (out : TaskOut.t) :
  POST_tasks body db = (Return out, db') ->
  GET_task (TaskOut.id out) db' = (Return out, db')
  /\ status_of (fst (GET_task (TaskOut.id out) db')) = 200.
Proof.
  intros Hpost.
  assert (GET_task (TaskOut.id out) db' = (Return out, db')) as Hget.
  { unfold POST_tasks, bind, lift in Hpost.
    destruct (validate_TaskCreate body) as [task | e]; [| discriminate].
    rewrite create_task_run in Hpost. cbv zeta in Hpost.
    destruct (existsb _ (rows db)) eqn:E; [discriminate |].
    unfold ret in Hpost. inversion Hpost; subst; clear Hpost.
    unfold GET_task, read_task, bind, select_where_id. simpl.
    now rewrite filter_has_id_appended. }
  split; [assumption | now rewrite Hget].
Qed.


(** C4. [PUT /tasks/{id}] with an accepted body on a row of the store puts
    the body's title and completed flag on that row and nothing else: the row
    keeps its id and its place in the table, the rows before and after it and
    the id generator are as they were, and a following [GET /tasks/{id}]
    returns the new values. *)
Theorem update_changes_title_and_completed
        (row : Task.t) (body : json) (task : TaskUpdate.t) (db : Store) :
  pk_unique (rows db) ->
  In row (rows db) ->
  validate_TaskUpdate body = Return task ->
  exists before after,
    rows db = (before ++ row :: after)%list
    /\ let updated := Task.mk (Task.id row) (TaskUpdate.title task)
                              (TaskUpdate.completed task) in
       let out := TaskOut.mk (Task.id row) (TaskUpdate.title task)
                             (TaskUpdate.completed task) in
       let db' := mkStore (before ++ updated :: after)%list (generator db) in
       PUT_task (Task.id row) body db = (Return out, db')
       /\ GET_task (Task.id row) db' = (Return out, db').
Proof.
  intros Hpk Hin Hbody.
  destruct (in_split _ _ Hin) as [before [after Hsplit]].
  exists before, after. split; [assumption |]. intros updated out db'.
  assert (rows (snd (update_task (Task.id row) task db))
          = (before ++ updated :: after)%list) as Hrows.
  { rewrite update_task_present by assumption. simpl.
    rewrite Hsplit in Hpk |- *. now apply overwritten_at. }
  assert (PUT_task (Task.id row) body db = (Return out, db')) as Hput.
  { unfold PUT_task, bind, lift. rewrite Hbody.
    rewrite update_task_present in Hrows |- * by assumption.
    simpl in Hrows. rewrite Hrows. reflexivity. }
  split; [assumption |].
  pose proof (update_task_pk_unique (Task.id row) task db Hpk) as Hpk'.
  rewrite Hrows in Hpk'.
  unfold GET_task, bind.
  change (Task.id row) with (Task.id updated).
  rewrite read_task_present; [reflexivity | exact Hpk' | apply in_elt].
Qed.


(** C8. [POST /suggestions/] leaves the store as it was whatever the chat
    client does; when the call fails, the handler raises the 500 exception
    whose detail is "Ollama error: " followed by the description of the
    failure. *)
Theorem suggestion_failure_is_500 (title : string) (db : Store) :
  snd (POST_suggestions title db) = db
  /\ forall str_e,
      ollama_chat "gemma3:4b-it-qat"
        [Message.mk "user"
           ("Just answer only steps for this task short: '" ++ title ++ "'?")]
      = Failed str_e ->
      POST_suggestions title db
      = (Raise (HTTPException 500 ("Ollama error: " ++ str_e)), db)
      /\ status_of (fst (POST_suggestions title db)) = 500
      /\ occurs_in str_e ("Ollama error: " ++ str_e).
Proof.
  unfold POST_suggestions, suggest_task_completion. split.
  - destruct (ollama_chat _ _); reflexivity.
  - intros str_e ->. repeat split.
    exists "Ollama error: ", "". now rewrite append_empty_r.
Qed.

(** C9. [update_task] and [delete_task] at [task_id] leave every row with
    another id alone: the rows selected by that other id are the same after
    as before, so a row with another id is in the table after the operation
    exactly when it was in it before. *)
Theorem other_rows_untouched (task_id other : Z) (db : Store) :
  other <> task_id ->
  (forall task,
     let db' := snd (update_task task_id task db) in
     filter (has_id other) (rows db') = filter (has_id other) (rows db)
     /\ forall row, Task.id row = other ->
                    (In row (rows db') <-> In row (rows db)))
  /\ (let db' := snd (delete_task task_id db) in
      filter (has_id other) (rows db') = filter (has_id other) (rows db)
      /\ forall row, Task.id row = other ->
                     (In row (rows db') <-> In row (rows db))).
Proof.
  intros Hneq.
  assert (forall t1 t2 : list Task.t,
            filter (has_id other) t1 = filter (has_id other) t2 ->
            forall row, Task.id row = other -> (In row t1 <-> In row t2))
    as Hin.
  { intros t1 t2 Hsel row Hid.
    assert (forall t, In row t <-> In row (filter (has_id other) t)) as Hf.
    { intros t. rewrite filter_In. apply has_id_true in Hid. tauto. }
    now rewrite (Hf t1), (Hf t2), Hsel. }
  split.
  - intros task db'.
    assert (filter (has_id other) (rows db') = filter (has_id other) (rows db))
      as Hsel.
    { subst db'. unfold update_task, bind, select_where_id.
      destruct (filter (has_id task_id) (rows db)) as [| r [| r' l]] eqn:E;
        simpl; try reflexivity;
        [destruct (id_in_range task_id); reflexivity |].
      assert (Task.id r = task_id) as ->.
      { apply has_id_true.
        assert (In r (filter (has_id task_id) (rows db))) as H
            by (rewrite E; now left).
        apply filter_In in H. tauto. }
      unfold assign_commit, refresh. simpl.
      destruct (filter (has_id task_id) (overwritten _ _ _ _)) as [| x [| y l]];
        simpl; now apply overwritten_select. }
    split; [assumption | now apply Hin].
  - intros db'.
    assert (filter (has_id other) (rows db') = filter (has_id other) (rows db))
      as Hsel.
    { subst db'. unfold delete_task, bind, select_where_id.
      destruct (filter (has_id task_id) (rows db)) as [| r [| r' l]] eqn:E;
        simpl; try reflexivity;
        [destruct (id_in_range task_id); reflexivity |].
      assert (Task.id r = task_id) as ->.
      { apply has_id_true.
        assert (In r (filter (has_id task_id) (rows db))) as H
            by (rewrite E; now left).
        apply filter_In in H. tauto. }
      now apply removed_select_other. }
    split; [assumption | now apply Hin].
Qed.

(** ** Validation *)

Lemma dict_get_other (key k : string) (v : json)
      (before after : list (string * json)) :
  key <> k ->
  dict_get key (before ++ (k, v) :: after)%list
  = dict_get key (before ++ after)%list.
Proof.
  intros Hneq. induction before as [| [k' v'] before IH]; simpl.
  - destruct (dict_get key after); [reflexivity |].
    apply String.eqb_neq in Hneq. now rewrite Hneq.
  - now rewrite IH.
Qed.

Lemma validate_TaskCreate_title (body : json) (task : TaskCreate.t) :
  validate_TaskCreate body = Return task ->
  exists members,
    body = JObj members
    /\ dict_get "title" members = Some (JStr (TaskCreate.title task)).
Proof.
  unfold validate_TaskCreate. intros H.
  destruct body as [| | | | | members]; try discriminate.
  exists members. split; [reflexivity |].
  destruct (dict_get "title" members) as [tv |]; [| discriminate].
  destruct tv; simpl in H; try discriminate.
  destruct (dict_get "completed" members) as [cv |].
  - destruct (validate_bool cv); [| discriminate].
    now inversion H.
  - now inversion H.
Qed.

Lemma validate_TaskUpdate_title (body : json) (task : TaskUpdate.t) :
  validate_TaskUpdate body = Return task ->
  exists members,
    body = JObj members
    /\ dict_get "title" members = Some (JStr (TaskUpdate.title task)).
Proof.
  unfold validate_TaskUpdate. intros H.
  destruct body as [| | | | | members]; try discriminate.
  exists members. split; [reflexivity |].
  destruct (dict_get "title" members) as [tv |]; [| discriminate].
  destruct tv; simpl in H; try discriminate.
  destruct (dict_get "completed" members) as [cv |]; [| discriminate].
  destruct (validate_bool cv); [| discriminate].
  now inversion H.
Qed.

Lemma overwritten_selected (task_id : Z) (title : string) (completed : bool)
      (table : list Task.t) (row : Task.t) :
  In row (filter (has_id task_id) (overwritten task_id title completed table)) ->
  row = Task.mk task_id title completed.
Proof.
  unfold overwritten. rewrite filter_In, in_map_iff.
  intros [[r [Hr _]] Hid].
  destruct (has_id task_id r) eqn:E; [now symmetry |].
  subst r. congruence.
Qed.

(** C10. Members of a [POST /tasks/] body under keys other than "title" and
    "completed" play no part: two objects that agree on those two keys get
    the same answer and leave the same store, an "id" member (or any other
    extra member) can be dropped from the body without changing either, and
    the id of the created Task is the one the id generator picks from the
    store. *)
Theorem extra_members_ignored (db : Store) :
  (forall members1 members2,
     dict_get "title" members1 = dict_get "title" members2 ->
     dict_get "completed" members1 = dict_get "completed" members2 ->
     POST_tasks (JObj members1) db = POST_tasks (JObj members2) db)
  /\ (forall before after v,
        POST_tasks (JObj (before ++ ("id", v) :: after)%list) db
        = POST_tasks (JObj (before ++ after)%list) db)
  /\ (forall before after key v,
        key <> "title" -> key <> "completed" ->
        POST_tasks (JObj (before ++ (key, v) :: after)%list) db
        = POST_tasks (JObj (before ++ after)%list) db)
  /\ (forall body out db',
        POST_tasks body db = (Return out, db') ->
        TaskOut.id out = fst (alloc (generator db) (rows db))).
Proof.
  assert (forall members1 members2,
     dict_get "title" members1 = dict_get "title" members2 ->
     dict_get "completed" members1 = dict_get "completed" members2 ->
     POST_tasks (JObj members1) db = POST_tasks (JObj members2) db) as Hagree.
  { intros m1 m2 Ht Hc. unfold POST_tasks, validate_TaskCreate.
    now rewrite Ht, Hc. }
  assert (forall before after key v,
        key <> "title" -> key <> "completed" ->
        POST_tasks (JObj (before ++ (key, v) :: after)%list) db
        = POST_tasks (JObj (before ++ after)%list) db) as Hdrop.
  { intros before after key v Ht Hc.
    apply Hagree; apply dict_get_other; congruence. }
  repeat split; try assumption.
  - intros before after v. apply Hdrop; discriminate.
  - intros body out db' H. unfold POST_tasks, bind, lift in H.
    destruct (validate_TaskCreate body) as [task | e]; [| discriminate].
    rewrite create_task_run in H. cbv zeta in H.
    destruct (existsb _ (rows db)); [discriminate |].
    unfold ret in H. now inversion H.
Qed.

(** C2, as the code has it.  A body accepted by the validation of a create
    or of an update is an object whose "title" member is a JSON string, and
    that very string, empty or not, is the title of the validated request, of
    the Task that [POST /tasks/] or [PUT /tasks/{id}] returns, and of the row
    then in the table; a body whose title is the empty string is accepted. *)
Theorem accepted_title_is_body_string :
  (forall body task,
     validate_TaskCreate body = Return task ->
     exists members,
       body = JObj members
       /\ dict_get "title" members = Some (JStr (TaskCreate.title task)))
  /\ (forall body task,
        validate_TaskUpdate body = Return task ->
        exists members,
          body = JObj members
          /\ dict_get "title" members = Some (JStr (TaskUpdate.title task)))
  /\ (forall body db out db',
        POST_tasks body db = (Return out, db') ->
        exists members,
          body = JObj members
          /\ dict_get "title" members = Some (JStr (TaskOut.title out))
          /\ In (Task.mk (TaskOut.id out) (TaskOut.title out)
                         (TaskOut.completed out)) (rows db'))
  /\ (forall task_id body db out db',
        PUT_task task_id body db = (Return out, db') ->
        exists members,
          body = JObj members
          /\ dict_get "title" members = Some (JStr (TaskOut.title out))
          /\ In (Task.mk (TaskOut.id out) (TaskOut.title out)
                         (TaskOut.completed out)) (rows db'))
  /\ validate_TaskCreate (JObj [("title", JStr "")])
     = Return (TaskCreate.mk "" false)
  /\ validate_TaskUpdate (JObj [("title", JStr ""); ("completed", JBool true)])
     = Return (TaskUpdate.mk "" true).
Proof.
  split; [exact validate_TaskCreate_title |].
  split; [exact validate_TaskUpdate_title |].
  split; [| split; [| split; reflexivity]].
  - intros body db out db' H. unfold POST_tasks, bind, lift in H.
    destruct (validate_TaskCreate body) as [task | e] eqn:Hv; [| discriminate].
    destruct (validate_TaskCreate_title _ _ Hv) as [members [-> Ht]].
    exists members. split; [reflexivity |].
    rewrite create_task_run in H. cbv zeta in H.
    destruct (existsb _ (rows db)); [discriminate |].
    unfold ret in H. inversion H; subst; clear H. simpl.
    split; [assumption |]. apply in_or_app. right. now left.
  - intros task_id body db out db' H. unfold PUT_task, bind, lift in H.
    destruct (validate_TaskUpdate body) as [task | e] eqn:Hv; [| discriminate].
    destruct (validate_TaskUpdate_title _ _ Hv) as [members [-> Ht]].
    exists members. split; [reflexivity |].
    unfold update_task, bind, select_where_id in H.
    destruct (filter (has_id task_id) (rows db)) as [| r [| r' l]];
      simpl in H; try discriminate;
      [destruct (id_in_range task_id); discriminate |].
    unfold assign_commit, refresh in H. simpl in H.
    destruct (filter (has_id (Task.id r)) (overwritten _ _ _ _))
      as [| x [| y l]] eqn:E; simpl in H; try discriminate.
    unfold ret in H. inversion H; subst; clear H.
    assert (In x (filter (has_id (Task.id r))
                         (overwritten (Task.id r) (TaskUpdate.title task)
                                      (TaskUpdate.completed task) (rows db))))
      as Hx by (rewrite E; now left).
    pose proof (overwritten_selected _ _ _ _ _ Hx) as ->. simpl.
    split; [assumption |].
    apply filter_In in Hx. tauto.
Qed.

(** ** Further properties of the handlers *)

Lemma filter_has_id_single (task_id : Z) (table : list Task.t) (row : Task.t) :
  filter (has_id task_id) table = [row] ->
  Task.id row = task_id /\ In row table.
Proof.
  intros E.
  assert (In row (filter (has_id task_id) table)) as H by (rewrite E; now left).
  apply filter_In in H. destruct H as [Hin Hid].
  split; [now apply has_id_true | assumption].
Qed.

Lemma overwritten_select_same (task_id : Z) (title : string) (completed : bool)
      (table : list Task.t) :
  filter (has_id task_id) (overwritten task_id title completed table)
  = map (fun _ => Task.mk task_id title completed)
        (filter (has_id task_id) table).
Proof.
  unfold overwritten. induction table as [| row table IH]; simpl; [reflexivity |].
  destruct (has_id task_id row) eqn:E; simpl.
  - replace (has_id task_id (Task.mk task_id title completed)) with true
      by (symmetry; now apply has_id_true).
    now rewrite IH.
  - now rewrite E, IH.
Qed.

Lemma overwritten_twice (task_id : Z) (title1 title2 : string)
      (completed1 completed2 : bool) (table : list Task.t) :
  overwritten task_id title2 completed2
              (overwritten task_id title1 completed1 table)
  = overwritten task_id title2 completed2 table.
Proof.
  unfold overwritten. rewrite map_map. apply map_ext. intros row.
  destruct (has_id task_id row) eqn:E; [| now rewrite E].
  replace (has_id task_id (Task.mk task_id title1 completed1)) with true
    by (symmetry; now apply has_id_true).
  reflexivity.
Qed.

Lemma removed_no_match (task_id : Z) (table : list Task.t) :
  existsb (has_id task_id) table = false ->
  removed task_id table = table.
Proof.
  unfold removed. induction table as [| row table IH]; simpl; intros H.
  - reflexivity.
  - apply orb_false_iff in H. destruct H as [-> H]. simpl. now rewrite IH.
Qed.

(** What a [POST /tasks/] that returned a Task has done. *)
Lemma POST_tasks_returned (body : json) (db db' : Store) (out : TaskOut.t) :
  POST_tasks body db = (Return out, db') ->
  exists task,
    validate_TaskCreate body = Return task
    /\ existsb (has_id (TaskOut.id out)) (rows db) = false
    /\ out = TaskOut.mk (TaskOut.id out) (TaskCreate.title task)
                        (TaskCreate.completed task)
    /\ rows db'
       = (rows db ++ [Task.mk (TaskOut.id out) (TaskCreate.title task)
                              (TaskCreate.completed task)])%list.
Proof.
  intros H. unfold POST_tasks, bind, lift in H.
  destruct (validate_TaskCreate body) as [task | e]; [| discriminate].
  exists task. rewrite create_task_run in H. cbv zeta in H.
  destruct (existsb _ (rows db)) eqn:E; [discriminate |].
  unfold ret in H. inversion H; subst; clear H. simpl.
  repeat split. exact E.
Qed.

(** X1. A [POST /tasks/] body that is not an object, or has no "title"
    member, or has one that is not a string, is answered 422; no row is
    written and the id generator is not advanced. *)
Theorem create_rejects_malformed (body : json) (db : Store) :
  (forall members, body <> JObj members)
  \/ (exists members, body = JObj members /\ dict_get "title" members = None)
  \/ (exists members v,
        body = JObj members
        /\ dict_get "title" members = Some v
        /\ forall s, v <> JStr s) ->
  POST_tasks body db = (Raise RequestValidationError, db)
  /\ status_of (fst (POST_tasks body db)) = 422.
Proof.
  intros H.
  assert (validate_TaskCreate body = Raise RequestValidationError) as Hv.
  { destruct H as [Hobj | [[members [-> Ht]] | [members [v [-> [Ht Hs]]]]]].
    - destruct body; try reflexivity. now elim (Hobj members).
    - simpl. now rewrite Ht.
    - simpl. rewrite Ht. destruct v; try reflexivity. now elim (Hs s). }
  unfold POST_tasks, bind, lift. rewrite Hv. split; reflexivity.
Qed.

(** X2. A [PUT /tasks/{id}] body without a "title" or without a
    "completed" member is answered 422 whatever the id, also when no row has
    it, and the store is left as it was. *)
Theorem update_requires_both_fields
        (task_id : Z) (members : list (string * json)) (db : Store) :
  dict_get "title" members = None \/ dict_get "completed" members = None ->
  PUT_task task_id (JObj members) db = (Raise RequestValidationError, db)
  /\ status_of (fst (PUT_task task_id (JObj members) db)) = 422.
Proof.
  intros H.
  assert (validate_TaskUpdate (JObj members) = Raise RequestValidationError)
    as Hv.
  { simpl. destruct H as [Ht | Hc].
    - now rewrite Ht.
    - rewrite Hc. destruct (dict_get "title" members) as [tv |];
        [| reflexivity].
      destruct (validate_str tv); reflexivity. }
  unfold PUT_task, bind, lift. rewrite Hv. split; reflexivity.
Qed.

(** X3. The update schema is the create schema with "completed" made
    mandatory: a body accepted as an update is accepted as a create with the
    same title and flag, and a body accepted as a create that has a
    "completed" member is accepted as an update with the same title and
    flag. *)
Theorem update_schema_refines_create (body : json) :
  (forall task,
     validate_TaskUpdate body = Return task ->
     validate_TaskCreate body
     = Return (TaskCreate.mk (TaskUpdate.title task)
                             (TaskUpdate.completed task)))
  /\ (forall task members v,
        body = JObj members ->
        dict_get "completed" members = Some v ->
        validate_TaskCreate body = Return task ->
        validate_TaskUpdate body
        = Return (TaskUpdate.mk (TaskCreate.title task)
                                (TaskCreate.completed task))).
Proof.
  split.
  - intros task H. destruct body as [| | | | | members]; try discriminate.
    simpl in *.
    destruct (dict_get "title" members) as [tv |]; [| discriminate].
    destruct (validate_str tv) as [title |]; [| discriminate].
    destruct (dict_get "completed" members) as [cv |]; [| discriminate].
    destruct (validate_bool cv) as [completed |]; [| discriminate].
    now inversion H.
  - intros task members v -> Hc H. simpl in *. rewrite Hc in *.
    destruct (dict_get "title" members) as [tv |]; [| discriminate].
    destruct (validate_str tv) as [title |]; [| discriminate].
    destruct (validate_bool v) as [completed |]; [| discriminate].
    now inversion H.
Qed.

(** X4. After a [POST /tasks/] that returned a Task, [GET /tasks/] returns
    the Tasks it returned before, in the same order, followed by the new one,
    and the new id is the id of none of the earlier Tasks. *)
Theorem list_after_create
        (body : json) (db db' : Store) (out : TaskOut.t)
        (listed : list TaskOut.t) :
  POST_tasks body db = (Return out, db') ->
  GET_tasks db = (Return listed, db) ->
  GET_tasks db' = (Return (listed ++ [out])%list, db')
  /\ ~ In (TaskOut.id out) (map TaskOut.id listed).
Proof.
  intros Hpost Hlist.
  destruct (POST_tasks_returned _ _ _ _ Hpost) as [task [_ [Hex [Hout Hrows]]]].
  unfold GET_tasks, read_tasks, bind, select_all, ret in *.
  inversion Hlist as [Hl]. rewrite Hrows, map_app. simpl.
  unfold to_TaskOut at 2. simpl. rewrite <- Hout. split; [reflexivity |].
  rewrite map_map. simpl.
  apply filter_has_id_absent_inv. now apply existsb_has_id_false.
Qed.

(** X5. Deleting a Task right after its creation returns it and puts the
    table back to the rows it had before the creation. *)
Theorem create_then_delete_restores
        (body : json) (db db' : Store) (out : TaskOut.t) :
  POST_tasks body db = (Return out, db') ->
  exists db'',
    DELETE_task (TaskOut.id out) db' = (Return out, db'')
    /\ rows db'' = rows db.
Proof.
  intros Hpost.
  destruct (POST_tasks_returned _ _ _ _ Hpost) as [task [_ [Hex [Hout Hrows]]]].
  exists (mkStore (rows db) (generator db')).
  split; [| reflexivity].
  unfold DELETE_task, delete_task, bind, select_where_id. rewrite Hrows.
  rewrite filter_has_id_appended by assumption. simpl.
  unfold delete_commit, ret. simpl. rewrite Hrows.
  unfold removed at 1. rewrite filter_app.
  fold (removed (TaskOut.id out) (rows db)).
  rewrite removed_no_match by assumption. simpl.
  replace (has_id (TaskOut.id out)
                  (Task.mk (TaskOut.id out) (TaskCreate.title task)
                           (TaskCreate.completed task))) with true
    by (symmetry; now apply has_id_true).
  simpl. rewrite app_nil_r. unfold to_TaskOut. simpl. now rewrite <- Hout.
Qed.

(** X6. For [update_task] the last write wins, on every store and every id:
    an update that follows another update of the same id gives the answer
    and the store it gives without the earlier one.  So an update repeated
    changes nothing more. *)
Theorem update_last_write_wins
        (task_id : Z) (task1 task2 : TaskUpdate.t) (db : Store) :
  update_task task_id task2 (snd (update_task task_id task1 db))
  = update_task task_id task2 db.
Proof.
  unfold update_task at 2. unfold bind, select_where_id.
  destruct (filter (has_id task_id) (rows db)) as [| r [| r' l]] eqn:E;
    simpl; try reflexivity;
    [destruct (id_in_range task_id); reflexivity |].
  destruct (filter_has_id_single _ _ _ E) as [Hid _]. subst task_id.
  unfold assign_commit, refresh. simpl.
  rewrite overwritten_select_same, E. simpl.
  unfold update_task, bind, select_where_id. simpl.
  rewrite overwritten_select_same, E. simpl.
  unfold assign_commit, refresh. simpl.
  rewrite overwritten_twice. reflexivity.
Qed.

(** X7. [update_task] never adds a row, never removes one and never
    changes an id: on every store and for every id and update, the ids of the
    table after it are the ids before it, each as often, there are as many
    rows, and the id generator is as it was. *)
Theorem update_keeps_ids (task_id : Z) (task : TaskUpdate.t) (db : Store) :
  Permutation (map Task.id (rows (snd (update_task task_id task db))))
              (map Task.id (rows db))
  /\ List.length (rows (snd (update_task task_id task db)))
     = List.length (rows db)
  /\ generator (snd (update_task task_id task db)) = generator db.
Proof.
  assert (map Task.id (rows (snd (update_task task_id task db)))
          = map Task.id (rows db)
          /\ generator (snd (update_task task_id task db)) = generator db)
    as [Hids Hgen].
  { unfold update_task, bind, select_where_id.
    destruct (filter (has_id task_id) (rows db)) as [| r [| r' l]] eqn:E;
      simpl; try (split; reflexivity);
      [destruct (id_in_range task_id); split; reflexivity |].
    unfold assign_commit, refresh. simpl.
    destruct (filter (has_id (Task.id r)) (overwritten _ _ _ _))
      as [| x [| y l]]; simpl; split; try reflexivity; apply overwritten_ids. }
  split; [now rewrite Hids |]. split; [| assumption].
  apply (f_equal (@List.length Z)) in Hids. now rewrite !length_map in Hids.
Qed.

(** X8. On a table with unique ids, [GET /tasks/] and [GET /tasks/{id}]
    agree: a Task is in the list exactly when fetching its id returns it. *)
Theorem list_and_get_agree (db : Store) (out : TaskOut.t) :
  pk_unique (rows db) ->
  GET_tasks db = (Return (map to_TaskOut (rows db)), db)
  /\ (In out (map to_TaskOut (rows db))
      <-> GET_task (TaskOut.id out) db = (Return out, db)).
Proof.
  intros Hpk. split; [reflexivity |]. split.
  - intros Hin. apply in_map_iff in Hin. destruct Hin as [row [<- Hin]].
    unfold GET_task, bind. simpl. now rewrite read_task_present.
  - intros Hget. unfold GET_task, read_task, bind, select_where_id in Hget.
    destruct (filter (has_id (TaskOut.id out)) (rows db)) as [| r [| r' l]] eqn:E;
      simpl in Hget; try discriminate;
      [destruct (id_in_range (TaskOut.id out)); discriminate |].
    unfold ret in Hget. inversion Hget as [Hout].
    apply in_map. now destruct (filter_has_id_single _ _ _ E).
Qed.

(** X9. On a table with unique ids and for an id in the integer range of
    the id column, a second [DELETE /tasks/{id}] of the same id is answered
    404 and changes nothing, whether the first one found a row or not. *)
Theorem delete_twice_not_found (task_id : Z) (db : Store) :
  pk_unique (rows db) ->
  id_in_range task_id = true ->
  let db' := snd (DELETE_task task_id db) in
  DELETE_task task_id db' = (Raise (HTTPException 404 "Task not found"), db')
  /\ status_of (fst (DELETE_task task_id db')) = 404.
Proof.
  intros Hpk Hrange db'.
  assert (~ In task_id (map Task.id (rows db'))) as Habs.
  { subst db'. unfold DELETE_task. rewrite snd_bind_ret.
    destruct (in_dec Z.eq_dec task_id (map Task.id (rows db))) as [Hin | Habs].
    - apply in_map_iff in Hin. destruct Hin as [row [<- Hin]].
      rewrite delete_task_present by assumption. simpl. apply removed_absent.
    - now rewrite delete_task_miss. }
  assert (DELETE_task task_id db' = (Raise not_found, db')) as Hdel
      by (unfold DELETE_task, bind; now rewrite delete_task_absent).
  rewrite Hdel. split; reflexivity.
Qed.

Lemma removed_at (row : Task.t) (before after : list Task.t) :
  pk_unique (before ++ row :: after)%list ->
  removed (Task.id row) (before ++ row :: after)%list = (before ++ after)%list.
Proof.
  unfold pk_unique. intros Hpk. rewrite map_app in Hpk. simpl in Hpk.
  pose proof (NoDup_remove_2 _ _ _ Hpk) as Hnotin.
  assert (forall l, ~ In (Task.id row) (map Task.id l) ->
                    removed (Task.id row) l = l) as Hsame.
  { intros l Hl. apply removed_no_match. now apply existsb_has_id_absent. }
  unfold removed. rewrite filter_app. simpl.
  replace (has_id (Task.id row) row) with true
    by (symmetry; now apply has_id_true).
  simpl. fold (removed (Task.id row) before). fold (removed (Task.id row) after).
  rewrite !Hsame; [reflexivity | |];
    intros Hin; apply Hnotin; apply in_or_app; tauto.
Qed.

(** X14. [DELETE /tasks/{id}] takes the one row out and keeps the others in
    their order: on a table with unique ids that reads
    [before ++ row :: after], deleting the id of [row] leaves
    [before ++ after], and that is what [GET /tasks/] then returns. *)
Theorem delete_keeps_order
        (row : Task.t) (before after : list Task.t) (db : Store) :
  pk_unique (rows db) ->
  rows db = (before ++ row :: after)%list ->
  let db' := mkStore (before ++ after)%list (generator db) in
  DELETE_task (Task.id row) db = (Return (to_TaskOut row), db')
  /\ GET_tasks db' = (Return (map to_TaskOut (before ++ after)%list), db').
Proof.
  intros Hpk Hrows db'. split; [| reflexivity].
  unfold DELETE_task, bind.
  rewrite delete_task_present;
    [| assumption | rewrite Hrows; apply in_elt].
  rewrite Hrows in Hpk |- *. now rewrite removed_at.
Qed.

(** ** The suggestion prompt *)

Lemma string_length_append (a b : string) :
  String.length (a ++ b) = (String.length a + String.length b)%nat.
Proof. induction a as [| c a IH]; simpl; [reflexivity | now rewrite IH]. Qed.

Lemma append_cancel_r (a b s : string) : a ++ s = b ++ s -> a = b.
Proof.
  revert b. induction a as [| c a IH]; intros [| d b] H; simpl in H.
  - reflexivity.
  - apply (f_equal String.length) in H. simpl in H.
    rewrite string_length_append in H. lia.
  - apply (f_equal String.length) in H. simpl in H.
    rewrite string_length_append in H. lia.
  - injection H as -> H. f_equal. now apply IH.
Qed.

(** X13. When the chat client, called with the model "gemma3:4b-it-qat" and
    the one message of role "user" whose content is the fixed sentence with
    the title between quotes, replies with a text, [POST /suggestions/]
    answers 200 with that text as the suggestion, unchanged, and the store is
    as it was; and that message is the message of no other title. *)
Theorem suggestion_success_returns_reply (title : string) (db : Store) :
  (forall content,
     ollama_chat "gemma3:4b-it-qat"
       [Message.mk "user"
          ("Just answer only steps for this task short: '" ++ title ++ "'?")]
     = Replied content ->
     POST_suggestions title db = (Return (Suggestion.mk content), db)
     /\ status_of (fst (POST_suggestions title db)) = 200)
  /\ (forall title',
        [Message.mk "user"
           ("Just answer only steps for this task short: '" ++ title ++ "'?")]
        = [Message.mk "user"
             ("Just answer only steps for this task short: '" ++ title'
              ++ "'?")] ->
        title = title').
Proof.
  split.
  - intros content Hreply.
    unfold POST_suggestions, suggest_task_completion. rewrite Hreply.
    split; reflexivity.
  - intros title' H. inversion H as [Hprompt].
    now apply append_cancel_r in Hprompt.
Qed.

(** ** Creation succeeds *)

(** The generated id is new to the table: what makes [id] a usable primary
    key. *)
Hypothesis alloc_fresh :
  forall g table, ~ In (fst (alloc g table)) (map Task.id table).

Lemma POST_tasks_accepted (body : json) (task : TaskCreate.t) (db : Store) :
  validate_TaskCreate body = Return task ->
  let i := fst (alloc (generator db) (rows db)) in
  let db_task := Task.mk i (TaskCreate.title task) (TaskCreate.completed task) in
  POST_tasks body db
  = (Return (to_TaskOut db_task),
     mkStore (rows db ++ [db_task])%list
             (snd (alloc (generator db) (rows db)))).
Proof.
  intros Hv i db_task. unfold POST_tasks, bind, lift. rewrite Hv.
  rewrite create_task_run. cbv zeta.
  now rewrite existsb_has_id_absent by apply alloc_fresh.
Qed.

Lemma POST_tasks_all_accepted (bodies : list json) (db : Store) :
  Forall (fun body => exists task, validate_TaskCreate body = Return task)
         bodies ->
  pk_unique (rows db) ->
  exists created db',
    POST_tasks_all bodies db = (Return (map to_TaskOut created), db')
    /\ rows db' = (rows db ++ created)%list
    /\ pk_unique (rows db')
    /\ List.length created = List.length bodies.
Proof.
  intros Hall. revert db.
  induction Hall as [| body bodies [task Hv] _ IH]; intros db Hpk.
  - exists [], db. simpl. rewrite app_nil_r. repeat split; assumption.
  - set (i := fst (alloc (generator db) (rows db))).
    set (db_task := Task.mk i (TaskCreate.title task) (TaskCreate.completed task)).
    set (db1 := mkStore (rows db ++ [db_task])%list
                        (snd (alloc (generator db) (rows db)))).
    assert (pk_unique (rows db1)) as Hpk1.
    { apply pk_unique_appended; [assumption |].
      apply existsb_has_id_absent, alloc_fresh. }
    destruct (IH db1 Hpk1) as [created [db' [Hrun [Hrows [Hpk' Hlen]]]]].
    exists (db_task :: created), db'. simpl.
    unfold bind at 1. rewrite (POST_tasks_accepted _ _ _ Hv). cbv zeta.
    fold i. fold db_task. fold db1. unfold bind at 1. rewrite Hrun.
    repeat split.
    + rewrite Hrows. simpl. now rewrite <- app_assoc.
    + assumption.
    + now rewrite Hlen.
Qed.

(** C6. A create request whose body has a string under "title" and nothing
    under "completed" is answered with a Task that has the body's title,
    [completed = false] and the freshly generated id, an id that no row had
    before and that the new row of the table has now; so it is for the body
    with title "Buy milk". *)
Theorem create_defaults_completed (db : Store) :
  (forall members title,
     dict_get "title" members = Some (JStr title) ->
     dict_get "completed" members = None ->
     exists i db',
       POST_tasks (JObj members) db = (Return (TaskOut.mk i title false), db')
       /\ ~ In i (map Task.id (rows db))
       /\ In (Task.mk i title false) (rows db'))
  /\ exists i db',
      POST_tasks (JObj [("title", JStr "Buy milk")]) db
      = (Return (TaskOut.mk i "Buy milk" false), db')
      /\ ~ In i (map Task.id (rows db)).
Proof.
  assert (forall members title,
     dict_get "title" members = Some (JStr title) ->
     dict_get "completed" members = None ->
     exists i db',
       POST_tasks (JObj members) db = (Return (TaskOut.mk i title false), db')
       /\ ~ In i (map Task.id (rows db))
       /\ In (Task.mk i title false) (rows db')) as Hgen.
  { intros members title Ht Hc.
    assert (validate_TaskCreate (JObj members)
            = Return (TaskCreate.mk title false)) as Hv
        by (unfold validate_TaskCreate; now rewrite Ht, Hc).
    eexists. eexists. rewrite (POST_tasks_accepted _ _ _ Hv). cbv zeta.
    split; [reflexivity |]. split; [apply alloc_fresh |].
    simpl. apply in_or_app. right. now left. }
  split; [exact Hgen |].
  destruct (Hgen [("title", JStr "Buy milk")] "Buy milk" eq_refl eq_refl)
    as [i [db' [H [Hfresh _]]]].
  now exists i, db'.
Qed.

(** C7. From the empty store, N accepted create requests are all answered
    with a Task; after deleting any one of the N created Tasks,
    [GET /tasks/] returns N - 1 Tasks, none of them with the deleted id.  On
    the empty store [GET /tasks/] returns the empty list. *)
Theorem list_after_creates_and_delete (bodies : list json) (g0 : G) :
  Forall (fun body => exists task, validate_TaskCreate body = Return task)
         bodies ->
  (exists outs db1,
     POST_tasks_all bodies (mkStore [] g0) = (Return outs, db1)
     /\ List.length outs = List.length bodies
     /\ forall out, In out outs ->
         exists db2 listed,
           DELETE_task (TaskOut.id out) db1 = (Return out, db2)
           /\ GET_tasks db2 = (Return listed, db2)
           /\ Z.of_nat (List.length listed)
              = Z.of_nat (List.length bodies) - 1
           /\ forall t, In t listed -> TaskOut.id t <> TaskOut.id out)
  /\ GET_tasks (mkStore [] g0) = (Return [], mkStore [] g0).
Proof.
  intros Hall. split; [| reflexivity].
  destruct (POST_tasks_all_accepted bodies (mkStore [] g0) Hall)
    as [created [db1 [Hrun [Hrows [Hpk Hlen]]]]]; [constructor |].
  simpl in Hrows.
  exists (map to_TaskOut created), db1.
  split; [assumption |]. split; [now rewrite length_map |].
  intros out Hout. apply in_map_iff in Hout. destruct Hout as [row [<- Hin]].
  rewrite <- Hrows in Hin.
  exists (mkStore (removed (Task.id row) (rows db1)) (generator db1)),
         (map to_TaskOut (removed (Task.id row) (rows db1))).
  repeat split.
  - unfold DELETE_task, bind. simpl.
    now rewrite delete_task_present.
  - rewrite length_map.
    pose proof (removed_length row (rows db1) Hpk Hin) as Hrem.
    assert (List.length (rows db1) = List.length bodies) as Hn
        by now rewrite Hrows.
    lia.
  - intros t Ht. apply in_map_iff in Ht. destruct Ht as [r [<- Hr]].
    simpl. intros Heq.
    apply (removed_absent (Task.id row) (rows db1)).
    apply in_map_iff. now exists r.
Qed.

Lemma serve_pk_unique_fresh (req : request) (db : Store) :
  pk_unique (rows db) -> pk_unique (rows (serve req db)).
Proof.
  intros Hpk. destruct req as [body | | task_id | task_id body | task_id | title].
  - simpl. destruct (validate_TaskCreate body) as [task | e] eqn:Hv.
    + rewrite (POST_tasks_accepted _ _ _ Hv). simpl.
      apply pk_unique_appended; [assumption |].
      apply existsb_has_id_absent, alloc_fresh.
    + unfold POST_tasks, bind, lift. now rewrite Hv.
  - assumption.
  - now apply (serve_pk_unique (GetTask task_id)).
  - now apply (serve_pk_unique (PutTask task_id body)).
  - now apply (serve_pk_unique (DeleteTask task_id)).
  - now apply (serve_pk_unique (PostSuggestions title)).
Qed.

Lemma reachable_pk_unique_fresh (db : Store) :
  reachable db -> pk_unique (rows db).
Proof.
  induction 1 as [g | req db _ IH].
  - constructor.
  - now apply serve_pk_unique_fresh.
Qed.

(** X10. With an id generator that hands out ids new to the table, in every
    store that the service can reach from the empty table, whatever requests
    it served, the Tasks that [GET /tasks/] returns have pairwise different
    ids. *)
Theorem reachable_ids_distinct (db : Store) (listed : list TaskOut.t) :
  reachable db ->
  GET_tasks db = (Return listed, db) ->
  NoDup (map TaskOut.id listed).
Proof.
  intros Hreach Hlist. apply reachable_pk_unique_fresh in Hreach.
  unfold GET_tasks, read_tasks, bind, select_all, ret in Hlist.
  inversion Hlist. rewrite map_map. exact Hreach.
Qed.

(** X11. With an id generator that hands out ids new to the table, in every
    store that the service can reach from the empty table no Task route ends
    in an internal error on an id in the integer range of the id column:
    [POST /tasks/] is answered 200 or 422, [GET /tasks/] 200,
    [GET /tasks/{id}] and [DELETE /tasks/{id}] 200 or 404, and
    [PUT /tasks/{id}] 200, 404 or 422.  On an id outside that range that no
    row has, [GET /tasks/{id}] and [DELETE /tasks/{id}] are answered 500. *)
Theorem no_internal_error (db : Store) :
  reachable db ->
  (forall body,
     status_of (fst (POST_tasks body db)) = 200
     \/ status_of (fst (POST_tasks body db)) = 422)
  /\ status_of (fst (GET_tasks db)) = 200
  /\ (forall task_id,
        id_in_range task_id = true ->
        status_of (fst (GET_task task_id db)) = 200
        \/ status_of (fst (GET_task task_id db)) = 404)
  /\ (forall task_id body,
        id_in_range task_id = true ->
        status_of (fst (PUT_task task_id body db)) = 200
        \/ status_of (fst (PUT_task task_id body db)) = 404
        \/ status_of (fst (PUT_task task_id body db)) = 422)
  /\ (forall task_id,
        id_in_range task_id = true ->
        status_of (fst (DELETE_task task_id db)) = 200
        \/ status_of (fst (DELETE_task task_id db)) = 404)
  /\ (forall task_id,
        id_in_range task_id = false ->
        ~ In task_id (map Task.id (rows db)) ->
        status_of (fst (GET_task task_id db)) = 500
        /\ status_of (fst (DELETE_task task_id db)) = 500).
Proof.
  intros Hreach. apply reachable_pk_unique_fresh in Hreach.
  split; [| split; [reflexivity |]; split; [| split; [| split]]].
  - intros body. destruct (validate_TaskCreate body) as [task | e] eqn:Hv.
    + left. now rewrite (POST_tasks_accepted _ _ _ Hv).
    + right. unfold POST_tasks, bind, lift. rewrite Hv.
      destruct body as [| | | | | members]; try (inversion Hv; reflexivity).
      simpl in Hv.
      destruct (dict_get "title" members) as [tv |];
        [| inversion Hv; reflexivity].
      destruct (validate_str tv); [| inversion Hv; reflexivity].
      destruct (dict_get "completed" members) as [cv |]; [| discriminate].
      destruct (validate_bool cv); [discriminate | inversion Hv; reflexivity].
  - intros task_id Hrange. unfold GET_task, bind.
    destruct (in_dec Z.eq_dec task_id (map Task.id (rows db))) as [Hin | Habs].
    + apply in_map_iff in Hin. destruct Hin as [row [<- Hin]].
      left. now rewrite read_task_present.
    + right. now rewrite read_task_absent.
  - intros task_id body Hrange. unfold PUT_task, bind, lift.
    destruct (validate_TaskUpdate body) as [task | e] eqn:Hv.
    + destruct (in_dec Z.eq_dec task_id (map Task.id (rows db))) as [Hin | Habs].
      * apply in_map_iff in Hin. destruct Hin as [row [<- Hin]].
        left. now rewrite update_task_present.
      * right. left. now rewrite update_task_absent.
    + right. right.
      destruct body as [| | | | | members]; try (inversion Hv; reflexivity).
      simpl in Hv.
      destruct (dict_get "title" members) as [tv |];
        [| inversion Hv; reflexivity].
      destruct (validate_str tv); [| inversion Hv; reflexivity].
      destruct (dict_get "completed" members) as [cv |];
        [| inversion Hv; reflexivity].
      destruct (validate_bool cv); [discriminate | inversion Hv; reflexivity].
  - intros task_id Hrange. unfold DELETE_task, bind.
    destruct (in_dec Z.eq_dec task_id (map Task.id (rows db))) as [Hin | Habs].
    + apply in_map_iff in Hin. destruct Hin as [row [<- Hin]].
      left. now rewrite delete_task_present.
    + right. now rewrite delete_task_absent.
  - intros task_id Hrange Habs. unfold GET_task, DELETE_task, bind.
    now rewrite read_task_out_of_range, delete_task_out_of_range.
Qed.

(** X12. A create request whose body has a string under "title" and a JSON
    boolean under "completed" is answered with a Task that has that title
    and that flag, and the new row of the table has them too. *)
Theorem create_honours_completed
        (members : list (string * json)) (title : string) (completed : bool)
        (db : Store) :
  dict_get "title" members = Some (JStr title) ->
  dict_get "completed" members = Some (JBool completed) ->
  exists i db',
    POST_tasks (JObj members) db = (Return (TaskOut.mk i title completed), db')
    /\ In (Task.mk i title completed) (rows db').
Proof.
  intros Ht Hc.
  assert (validate_TaskCreate (JObj members)
          = Return (TaskCreate.mk title completed)) as Hv
      by (unfold validate_TaskCreate; now rewrite Ht, Hc).
  eexists. eexists. rewrite (POST_tasks_accepted _ _ _ Hv). cbv zeta.
  split; [reflexivity |]. simpl. apply in_or_app. right. now left.
Qed.

End Backend.

(** * The handlers on concrete stores *)

Lemma max_id_bound (table : list Task.t) (i : Z) :
  In i (map Task.id table) -> i <= max_id table.
Proof.
  induction table as [| row table IH]; simpl; [contradiction |].
  intros [<- | Hin]; [lia |]. specialize (IH Hin). lia.
Qed.

Lemma alloc_retire_fresh (counter : Z) (table : list Task.t) :
  ~ In (fst (alloc_retire counter table)) (map Task.id table).
Proof.
  unfold alloc_retire. simpl. intros Hin. apply max_id_bound in Hin. lia.
Qed.

Lemma alloc_reuse_fresh (counter : Z) (table : list Task.t) :
  ~ In (fst (alloc_reuse counter table)) (map Task.id table).
Proof.
  unfold alloc_reuse. simpl. intros Hin. apply max_id_bound in Hin. lia.
Qed.

Lemma sample_rows_pk_unique : pk_unique sample_rows.
Proof.
  unfold pk_unique, sample_rows. simpl.
  repeat constructor; simpl; intuition discriminate.
Qed.

(** The scenario of the specification: create "A", create "B", list, delete
    the first, list. *)
Example scenario_create_list_delete :
  let db0 := mkStore Z [] 1 in
  let A := JObj [("title", JStr "A")] in
  let B := JObj [("title", JStr "B")] in
  let (r1, db1) := POST_tasks coerce_sample Z alloc_retire A db0 in
  let (r2, db2) := POST_tasks coerce_sample Z alloc_retire B db1 in
  let (r3, db3) := GET_tasks Z db2 in
  let (r4, db4) := DELETE_task Z int64_range 1 db3 in
  let (r5, _) := GET_tasks Z db4 in
  r1 = Return (TaskOut.mk 1 "A" false)
  /\ r2 = Return (TaskOut.mk 2 "B" false)
  /\ r3 = Return [TaskOut.mk 1 "A" false; TaskOut.mk 2 "B" false]
  /\ r4 = Return (TaskOut.mk 1 "A" false)
  /\ r5 = Return [TaskOut.mk 2 "B" false].
Proof. vm_compute. repeat split. Qed.

(** With a generator that reuses ids, the id of a deleted last row is given
    to the next created Task. *)
Example reuse_after_delete :
  let db0 := mkStore Z [] 0 in
  let A := JObj [("title", JStr "A")] in
  let B := JObj [("title", JStr "B")] in
  let C := JObj [("title", JStr "C")] in
  let (_, db1) := POST_tasks coerce_sample Z alloc_reuse A db0 in
  let (_, db2) := POST_tasks coerce_sample Z alloc_reuse B db1 in
  let (_, db3) := DELETE_task Z int64_range 2 db2 in
  let (r4, db4) := POST_tasks coerce_sample Z alloc_reuse C db3 in
  r4 = Return (TaskOut.mk 2 "C" false)
  /\ rows Z db4 = [Task.mk 1 "A" false; Task.mk 2 "C" false].
Proof. vm_compute. split; reflexivity. Qed.

(** ** The properties at concrete requests *)

Lemma create_then_get_witness :
  GET_task Z int64_range 3 (mkStore Z (sample_rows ++ [Task.mk 3 "C" true])%list 4)
  = (Return (TaskOut.mk 3 "C" true),
     mkStore Z (sample_rows ++ [Task.mk 3 "C" true])%list 4)
  /\ status_of
       (fst (GET_task Z int64_range 3
               (mkStore Z (sample_rows ++ [Task.mk 3 "C" true])%list 4)))
     = 200.
Proof.
  apply (create_then_get coerce_sample Z alloc_retire int64_range
           (JObj [("title", JStr "C"); ("completed", JStr "true")])
           (mkStore Z sample_rows 3)
           (mkStore Z (sample_rows ++ [Task.mk 3 "C" true])%list 4)
           (TaskOut.mk 3 "C" true)).
  reflexivity.
Defined.


Lemma update_changes_title_and_completed_witness :
  exists before after,
    sample_rows = (before ++ Task.mk 2 "B" false :: after)%list
    /\ PUT_task coerce_sample Z int64_range 2
         (JObj [("title", JStr "x"); ("completed", JBool true)])
         (mkStore Z sample_rows 3)
       = (Return (TaskOut.mk 2 "x" true),
          mkStore Z (before ++ Task.mk 2 "x" true :: after)%list 3)
    /\ GET_task Z int64_range 2 (mkStore Z (before ++ Task.mk 2 "x" true :: after)%list 3)
       = (Return (TaskOut.mk 2 "x" true),
          mkStore Z (before ++ Task.mk 2 "x" true :: after)%list 3).
Proof.
  apply (update_changes_title_and_completed coerce_sample Z int64_range
           (Task.mk 2 "B" false)
           (JObj [("title", JStr "x"); ("completed", JBool true)])
           (TaskUpdate.mk "x" true)
           (mkStore Z sample_rows 3)).
  - exact sample_rows_pk_unique.
  - simpl. right. left. reflexivity.
  - reflexivity.
Defined.


Lemma suggestion_failure_is_500_witness :
  POST_suggestions Z chat_unreachable "Buy milk" (mkStore Z sample_rows 3)
  = (Raise (HTTPException 500 "Ollama error: Failed to connect to Ollama"),
     mkStore Z sample_rows 3).
Proof.
  destruct (suggestion_failure_is_500 Z chat_unreachable "Buy milk"
              (mkStore Z sample_rows 3)) as [_ Hfail].
  destruct (Hfail "Failed to connect to Ollama" eq_refl) as [Hraise _].
  exact Hraise.
Defined.

Lemma other_rows_untouched_witness :
  filter (has_id 2)
         (rows Z (snd (update_task Z int64_range 1 (TaskUpdate.mk "x" true)
                                   (mkStore Z sample_rows 3))))
  = [Task.mk 2 "B" false]
  /\ filter (has_id 2) (rows Z (snd (delete_task Z int64_range 1 (mkStore Z sample_rows 3))))
     = [Task.mk 2 "B" false].
Proof.
  assert (2 <> 1) as Hneq by lia.
  destruct (other_rows_untouched Z int64_range 1 2 (mkStore Z sample_rows 3) Hneq)
    as [Hupd [Hdel _]].
  destruct (Hupd (TaskUpdate.mk "x" true)) as [Hsel _].
  split; [exact Hsel | exact Hdel].
Defined.

Lemma extra_members_ignored_witness :
  POST_tasks coerce_sample Z alloc_retire
    (JObj [("id", JNumber "99"); ("title", JStr "A")]) (mkStore Z [] 1)
  = POST_tasks coerce_sample Z alloc_retire
      (JObj [("title", JStr "A")]) (mkStore Z [] 1).
Proof.
  destruct (extra_members_ignored coerce_sample Z alloc_retire (mkStore Z [] 1))
    as [_ [Hid _]].
  exact (Hid [] [("title", JStr "A")] (JNumber "99")).
Defined.

Lemma accepted_title_is_body_string_witness :
  exists members,
    JObj [("title", JStr ""); ("title", JStr "Buy milk")] = JObj members
    /\ dict_get "title" members = Some (JStr "Buy milk").
Proof.
  destruct (accepted_title_is_body_string coerce_sample Z alloc_retire
              int64_range)
    as [Hcreate _].
  apply (Hcreate _ (TaskCreate.mk "Buy milk" false)). reflexivity.
Defined.

Lemma create_defaults_completed_witness :
  exists i db',
    POST_tasks coerce_sample Z alloc_retire
      (JObj [("title", JStr "Buy milk")]) (mkStore Z sample_rows 3)
    = (Return (TaskOut.mk i "Buy milk" false), db')
    /\ ~ In i (map Task.id (rows Z (mkStore Z sample_rows 3))).
Proof.
  exact (proj2 (create_defaults_completed coerce_sample Z alloc_retire
                  alloc_retire_fresh (mkStore Z sample_rows 3))).
Defined.

Lemma list_after_creates_and_delete_witness :
  GET_tasks Z (mkStore Z [] 1) = (Return [], mkStore Z [] 1)
  /\ exists outs db1,
      POST_tasks_all coerce_sample Z alloc_retire
        [JObj [("title", JStr "A")];
         JObj [("title", JStr "B"); ("completed", JBool true)]]
        (mkStore Z [] 1)
      = (Return outs, db1)
      /\ List.length outs = 2%nat.
Proof.
  assert (Forall (fun body => exists task,
                      validate_TaskCreate coerce_sample body = Return task)
                 [JObj [("title", JStr "A")];
                  JObj [("title", JStr "B"); ("completed", JBool true)]])
    as Hall by (repeat constructor; eexists; reflexivity).
  destruct (list_after_creates_and_delete coerce_sample Z alloc_retire
              int64_range
              alloc_retire_fresh _ 1 Hall)
    as [[outs [db1 [Hrun [Hlen _]]]] Hempty].
  split; [exact Hempty |]. exists outs, db1. split; [exact Hrun | exact Hlen].
Defined.



(** C2, as the claim has it, fails: the validation of a create and of an
    update accepts a body whose title is the empty string, and
    [POST /tasks/] stores a row with that title. *)
Lemma empty_title_accepted :
  validate_TaskCreate coerce_sample (JObj [("title", JStr "")])
  = Return (TaskCreate.mk "" false)
  /\ validate_TaskUpdate coerce_sample
       (JObj [("title", JStr ""); ("completed", JBool false)])
     = Return (TaskUpdate.mk "" false)
  /\ POST_tasks coerce_sample Z alloc_retire
       (JObj [("title", JStr "")]) (mkStore Z [] 1)
     = (Return (TaskOut.mk 1 "" false), mkStore Z [Task.mk 1 "" false] 2)
  /\ ~ (forall body task,
          validate_TaskCreate coerce_sample body = Return task ->
          TaskCreate.title task <> "").
Proof.
  repeat split.
  intros Hclaim.
  apply (Hclaim (JObj [("title", JStr "")]) (TaskCreate.mk "" false));
    reflexivity.
Qed.

(** ** The further properties at concrete requests *)

Lemma create_rejects_malformed_witness :
  POST_tasks coerce_sample Z alloc_retire
    (JObj [("title", JNumber "5")]) (mkStore Z sample_rows 3)
  = (Raise RequestValidationError, mkStore Z sample_rows 3)
  /\ status_of
       (fst (POST_tasks coerce_sample Z alloc_retire
               (JObj [("title", JNumber "5")]) (mkStore Z sample_rows 3)))
     = 422.
Proof.
  apply (create_rejects_malformed coerce_sample Z alloc_retire).
  right. right. exists [("title", JNumber "5")], (JNumber "5").
  split; [reflexivity |]. split; [reflexivity |]. discriminate.
Defined.

Lemma update_requires_both_fields_witness :
  PUT_task coerce_sample Z int64_range 1 (JObj [("title", JStr "x")])
           (mkStore Z sample_rows 3)
  = (Raise RequestValidationError, mkStore Z sample_rows 3)
  /\ status_of
       (fst (PUT_task coerce_sample Z int64_range 1 (JObj [("title", JStr "x")])
                      (mkStore Z sample_rows 3)))
     = 422.
Proof.
  apply (update_requires_both_fields coerce_sample Z int64_range 1
           [("title", JStr "x")]).
  right. reflexivity.
Defined.

Lemma update_schema_refines_create_witness :
  validate_TaskCreate coerce_sample
    (JObj [("title", JStr "x"); ("completed", JStr "true")])
  = Return (TaskCreate.mk "x" true).
Proof.
  destruct (update_schema_refines_create coerce_sample
              (JObj [("title", JStr "x"); ("completed", JStr "true")]))
    as [Hup _].
  apply (Hup (TaskUpdate.mk "x" true)). reflexivity.
Defined.

Lemma list_after_create_witness :
  GET_tasks Z (mkStore Z (sample_rows ++ [Task.mk 3 "C" false])%list 4)
  = (Return (map to_TaskOut sample_rows ++ [TaskOut.mk 3 "C" false])%list,
     mkStore Z (sample_rows ++ [Task.mk 3 "C" false])%list 4)
  /\ ~ In 3 (map TaskOut.id (map to_TaskOut sample_rows)).
Proof.
  apply (list_after_create coerce_sample Z alloc_retire
           (JObj [("title", JStr "C")])
           (mkStore Z sample_rows 3)
           (mkStore Z (sample_rows ++ [Task.mk 3 "C" false])%list 4)
           (TaskOut.mk 3 "C" false)
           (map to_TaskOut sample_rows)); reflexivity.
Defined.

Lemma create_then_delete_restores_witness :
  exists db'',
    DELETE_task Z int64_range 3 (mkStore Z (sample_rows ++ [Task.mk 3 "C" false])%list 4)
    = (Return (TaskOut.mk 3 "C" false), db'')
    /\ rows Z db'' = sample_rows.
Proof.
  apply (create_then_delete_restores coerce_sample Z alloc_retire int64_range
           (JObj [("title", JStr "C")])
           (mkStore Z sample_rows 3)
           (mkStore Z (sample_rows ++ [Task.mk 3 "C" false])%list 4)
           (TaskOut.mk 3 "C" false)).
  reflexivity.
Defined.

Lemma list_and_get_agree_witness :
  GET_tasks Z (mkStore Z sample_rows 3)
  = (Return (map to_TaskOut sample_rows), mkStore Z sample_rows 3)
  /\ (In (TaskOut.mk 2 "B" false) (map to_TaskOut sample_rows)
      <-> GET_task Z int64_range 2 (mkStore Z sample_rows 3)
          = (Return (TaskOut.mk 2 "B" false), mkStore Z sample_rows 3)).
Proof.
  apply (list_and_get_agree Z int64_range (mkStore Z sample_rows 3)
           (TaskOut.mk 2 "B" false)).
  exact sample_rows_pk_unique.
Defined.

Lemma delete_twice_not_found_witness :
  DELETE_task Z int64_range 1
    (snd (DELETE_task Z int64_range 1 (mkStore Z sample_rows 3)))
  = (Raise (HTTPException 404 "Task not found"),
     snd (DELETE_task Z int64_range 1 (mkStore Z sample_rows 3)))
  /\ status_of
       (fst (DELETE_task Z int64_range 1
               (snd (DELETE_task Z int64_range 1 (mkStore Z sample_rows 3)))))
     = 404.
Proof.
  apply (delete_twice_not_found Z int64_range 1 (mkStore Z sample_rows 3)).
  - exact sample_rows_pk_unique.
  - reflexivity.
Defined.

(** The store after three creations, a deletion and an update. *)
Lemma sample_reachable :
  reachable coerce_sample Z alloc_retire chat_unreachable int64_range
            (mkStore Z [Task.mk 1 "A" false; Task.mk 3 "x" true] 4).
Proof.
  exact (reachable_serve _ _ _ _ _
           (PutTask 3 (JObj [("title", JStr "x"); ("completed", JBool true)])) _
        (reachable_serve _ _ _ _ _ (DeleteTask 2) _
        (reachable_serve _ _ _ _ _ (PostTasks (JObj [("title", JStr "C")])) _
        (reachable_serve _ _ _ _ _ (PostTasks (JObj [("title", JStr "B")])) _
        (reachable_serve _ _ _ _ _ (PostTasks (JObj [("title", JStr "A")])) _
        (reachable_empty coerce_sample Z alloc_retire chat_unreachable
                         int64_range 1)))))).
Qed.

Lemma reachable_ids_distinct_witness :
  NoDup (map TaskOut.id [TaskOut.mk 1 "A" false; TaskOut.mk 3 "x" true]).
Proof.
  apply (reachable_ids_distinct coerce_sample Z alloc_retire chat_unreachable
           int64_range alloc_retire_fresh
           (mkStore Z [Task.mk 1 "A" false; Task.mk 3 "x" true] 4)
           [TaskOut.mk 1 "A" false; TaskOut.mk 3 "x" true]).
  - exact sample_reachable.
  - reflexivity.
Defined.

Lemma no_internal_error_witness :
  let db := mkStore Z [Task.mk 1 "A" false; Task.mk 3 "x" true] 4 in
  let update := JObj [("title", JStr "y"); ("completed", JBool false)] in
  (status_of (fst (POST_tasks coerce_sample Z alloc_retire
                     (JObj [("title", JStr "D")]) db)) = 200
   \/ status_of (fst (POST_tasks coerce_sample Z alloc_retire
                        (JObj [("title", JStr "D")]) db)) = 422)
  /\ status_of (fst (GET_tasks Z db)) = 200
  /\ (status_of (fst (GET_task Z int64_range 3 db)) = 200
      \/ status_of (fst (GET_task Z int64_range 3 db)) = 404)
  /\ (status_of (fst (PUT_task coerce_sample Z int64_range 2 update db)) = 200
      \/ status_of (fst (PUT_task coerce_sample Z int64_range 2 update db)) = 404
      \/ status_of (fst (PUT_task coerce_sample Z int64_range 2 update db)) = 422)
  /\ (status_of (fst (DELETE_task Z int64_range 1 db)) = 200
      \/ status_of (fst (DELETE_task Z int64_range 1 db)) = 404)
  /\ status_of (fst (GET_task Z int64_range (2 ^ 63) db)) = 500
  /\ status_of (fst (DELETE_task Z int64_range (2 ^ 63) db)) = 500.
Proof.
  intros db update.
  destruct (no_internal_error coerce_sample Z alloc_retire chat_unreachable
              int64_range alloc_retire_fresh db sample_reachable)
    as [Hpost [Hlist [Hget [Hput [Hdel Hout]]]]].
  split; [exact (Hpost _) |]. split; [exact Hlist |].
  split; [exact (Hget 3 eq_refl) |].
  split; [exact (Hput 2 update eq_refl) |].
  split; [exact (Hdel 1 eq_refl) |].
  apply (Hout (2 ^ 63)); [reflexivity |].
  simpl. intuition discriminate.
Defined.

Lemma create_honours_completed_witness :
  exists i db',
    POST_tasks coerce_sample Z alloc_retire
      (JObj [("title", JStr "C"); ("completed", JBool true)])
      (mkStore Z sample_rows 3)
    = (Return (TaskOut.mk i "C" true), db')
    /\ In (Task.mk i "C" true) (rows Z db').
Proof.
  apply (create_honours_completed coerce_sample Z alloc_retire
           alloc_retire_fresh); reflexivity.
Defined.

Lemma suggestion_success_returns_reply_witness :
  POST_suggestions Z chat_echo "Buy milk" (mkStore Z sample_rows 3)
  = (Return
       (Suggestion.mk
          "Just answer only steps for this task short: 'Buy milk'?"),
     mkStore Z sample_rows 3)
  /\ status_of
       (fst (POST_suggestions Z chat_echo "Buy milk" (mkStore Z sample_rows 3)))
     = 200.
Proof.
  destruct (suggestion_success_returns_reply Z chat_echo "Buy milk"
              (mkStore Z sample_rows 3)) as [Hreply _].
  apply Hreply. reflexivity.
Defined.

Lemma delete_keeps_order_witness :
  DELETE_task Z int64_range 1 (mkStore Z sample_rows 3)
  = (Return (TaskOut.mk 1 "A" false), mkStore Z [Task.mk 2 "B" false] 3)
  /\ GET_tasks Z (mkStore Z [Task.mk 2 "B" false] 3)
     = (Return [TaskOut.mk 2 "B" false], mkStore Z [Task.mk 2 "B" false] 3).
Proof.
  apply (delete_keeps_order Z int64_range (Task.mk 1 "A" false) [] [Task.mk 2 "B" false]
           (mkStore Z sample_rows 3)).
  - exact sample_rows_pk_unique.
  - reflexivity.
Defined.
